(** * ZHA binary sensors (homeassistant/components/zha/binary_sensor.py)

    A shallow embedding of the binary-sensor platform of the Zigbee Home
    Automation integration: the raw attribute values held in a cluster
    cache, the state parsers, the zone-type table, the entity classes
    with their match rules, and the entity's state query and update
    callback. *)

From Stdlib Require Import ZArith String List Bool Lia.
From stdpp Require Import base option gmap strings list fin_maps.

Open Scope Z_scope.
Open Scope string_scope.
Open Scope list_scope.

(** ** Python values and exceptions *)

(** The values that travel through this module: what a cluster cache
    holds for an attribute, what a device reports as its model, and the
    arguments of the update callback. *)
Inductive PyVal : Type :=
| PyNone
| PyBool (b : bool)
| PyInt (z : Z)
| PyStr (s : string).

Inductive PyExc : Type :=
| TypeError
| AttributeError
| IndexError.

(** A computation either returns a value or raises. *)
Inductive res (A : Type) : Type :=
| Ok (a : A)
| Raise (e : PyExc).
Arguments Ok {A} a.
Arguments Raise {A} e.

Definition bind {A B : Type} (m : res A) (k : A -> res B) : res B :=
  match m with
  | Ok a => k a
  | Raise e => Raise e
  end.

Declare Scope py_scope.
Delimit Scope py_scope with py.
Notation "x <~ m ;; k" := (bind m (fun x => k))
  (at level 100, m at next level, right associativity) : py_scope.
Open Scope py_scope.

Module Py.

(** [x is None] *)
Definition is_None (v : PyVal) : bool :=
  match v with
  | PyNone => true
  | _ => false
  end.

(** [isinstance(x, str)] *)
Definition isinstance_str (v : PyVal) : bool :=
  match v with
  | PyStr _ => true
  | _ => false
  end.

(** The builtin [bool(x)]: [None], [False], [0] and the empty string
    are falsy, every other value is truthy. *)
Definition truthy (v : PyVal) : bool :=
  match v with
  | PyNone => false
  | PyBool b => b
  | PyInt z => negb (Z.eqb z 0)
  | PyStr s => negb (String.eqb s "")
  end.

(** The integer a [bool] or [int] operand stands for in arithmetic. *)
Definition as_int (v : PyVal) : option Z :=
  match v with
  | PyBool b => Some (Z.b2z b)
  | PyInt z => Some z
  | _ => None
  end.

(** [a & b]: bitwise and on integers (two's complement, unbounded);
    two [bool]s give a [bool]; anything else is a [TypeError]. *)
Definition and_ (a b : PyVal) : res PyVal :=
  match a, b with
  | PyBool x, PyBool y => Ok (PyBool (x && y))
  | _, _ =>
      match as_int a, as_int b with
      | Some x, Some y => Ok (PyInt (Z.land x y))
      | _, _ => Raise TypeError
      end
  end.

(** [s.find(sub)] on strings: the lowest index at which [sub] occurs in
    [s], or [-1]. *)
Fixpoint find_from (sub s : string) (i : Z) : Z :=
  if String.prefix sub s then i
  else match s with
       | EmptyString => -1
       | String _ s' => find_from sub s' (i + 1)
       end.

(** [x.find(sub)]: only [str] has the method among the values here. *)
Definition find (x : PyVal) (sub : string) : res PyVal :=
  match x with
  | PyStr s => Ok (PyInt (find_from sub s 0))
  | _ => Raise AttributeError
  end.

(** [a != b] between integers. *)
Definition ne_int (a : PyVal) (n : Z) : PyVal :=
  match as_int a with
  | Some x => PyBool (negb (Z.eqb x n))
  | None => PyBool true
  end.

(** [a and b]: [b] is evaluated only when [a] is truthy; the result is
    the operand that decided. *)
Definition and_then (a : res PyVal) (b : unit -> res PyVal) : res PyVal :=
  x <~ a ;;
  if truthy x then b tt else Ok x.

(** [seq[0]] *)
Definition first {A : Type} (l : list A) : res A :=
  match l with
  | [] => Raise IndexError
  | x :: _ => Ok x
  end.

End Py.

(** ** Host-platform enumerations *)

(** The members of [BinarySensorDeviceClass] this module refers to. *)
Inductive BinarySensorDeviceClass : Type :=
| MOTION | OPENING | SMOKE | MOISTURE | GAS | VIBRATION
| MOVING | OCCUPANCY | LOCK | PROBLEM | PLUG | WINDOW.

Inductive EntityCategory : Type :=
| CONFIG
| DIAGNOSTIC.

(** ** Zone-type table *)

(** Zigbee Cluster Library Zone Type to Home Assistant device class. *)
Definition CLASS_MAPPING_items : list (Z * BinarySensorDeviceClass) :=
  [ (0x000D, MOTION);
    (0x0015, OPENING);
    (0x0028, SMOKE);
    (0x002A, MOISTURE);
    (0x002B, GAS);
    (0x002D, VIBRATION) ].

Definition CLASS_MAPPING : gmap Z BinarySensorDeviceClass :=
  list_to_map CLASS_MAPPING_items.

(** [d.get(key)] on a dict with integer keys.  A [bool] key hashes and
    compares as the integer it stands for; [None] and strings equal no
    integer key. *)
Definition dict_get {V : Type} (d : gmap Z V) (key : PyVal) : option V :=
  Py.as_int key ≫= (d !!.).

(** ** Entity classes *)

Inductive EntityClass : Type :=
| BinarySensor
| Accelerometer
| Occupancy
| Opening
| BinaryInput
| Motion
| IASZone
| FrostLock
| ReplaceFilter
| AqaraPetFeederErrorDetected
| XiaomiPlugConsumerConnected
| AqaraThermostatWindowOpen
| AqaraThermostatValveAlarm
| AqaraThermostatCalibrated
| AqaraThermostatExternalSensor
| AqaraLinkageAlarmState.

Definition SENSOR_ATTR (c : EntityClass) : option string :=
  match c with
  | BinarySensor => None
  | Accelerometer => Some "acceleration"
  | Occupancy => Some "occupancy"
  | Opening => Some "on_off"
  | BinaryInput => Some "present_value"
  | Motion => Some "on_off"
  | IASZone => Some "zone_status"
  | FrostLock => Some "frost_lock"
  | ReplaceFilter => Some "replace_filter"
  | AqaraPetFeederErrorDetected => Some "error_detected"
  | XiaomiPlugConsumerConnected => Some "consumer_connected"
  | AqaraThermostatWindowOpen => Some "window_open"
  | AqaraThermostatValveAlarm => Some "valve_alarm"
  | AqaraThermostatCalibrated => Some "calibrated"
  | AqaraThermostatExternalSensor => Some "sensor"
  | AqaraLinkageAlarmState => Some "linkage_alarm_state"
  end.

Definition _attr_device_class (c : EntityClass) : option BinarySensorDeviceClass :=
  match c with
  | Accelerometer => Some MOVING
  | Occupancy => Some OCCUPANCY
  | Opening => Some OPENING
  | Motion => Some MOTION
  | FrostLock => Some LOCK
  | ReplaceFilter => Some PROBLEM
  | AqaraPetFeederErrorDetected => Some PROBLEM
  | XiaomiPlugConsumerConnected => Some PLUG
  | AqaraThermostatWindowOpen => Some WINDOW
  | AqaraThermostatValveAlarm => Some PROBLEM
  | AqaraLinkageAlarmState => Some SMOKE
  | BinarySensor | BinaryInput | IASZone
  | AqaraThermostatCalibrated | AqaraThermostatExternalSensor => None
  end.

Definition _attr_entity_category (c : EntityClass) : option EntityCategory :=
  match c with
  | AqaraThermostatCalibrated => Some DIAGNOSTIC
  | AqaraThermostatExternalSensor => Some DIAGNOSTIC
  | _ => None
  end.

Definition _attr_name (c : EntityClass) : option string :=
  match c with
  | AqaraPetFeederErrorDetected => Some "Error detected"
  | XiaomiPlugConsumerConnected => Some "Consumer connected"
  | AqaraThermostatWindowOpen => Some "Window open"
  | AqaraThermostatValveAlarm => Some "Valve alarm"
  | AqaraThermostatCalibrated => Some "Calibrated"
  | AqaraThermostatExternalSensor => Some "External sensor"
  | AqaraLinkageAlarmState => Some "Linkage alarm state"
  | _ => None
  end.

Definition id_suffix (c : EntityClass) : option string :=
  match c with
  | FrostLock => Some "frost_lock"
  | ReplaceFilter => Some "replace_filter"
  | AqaraPetFeederErrorDetected => Some "error_detected"
  | XiaomiPlugConsumerConnected => Some "consumer_connected"
  | AqaraThermostatWindowOpen => Some "window_open"
  | AqaraThermostatValveAlarm => Some "valve_alarm"
  | AqaraThermostatCalibrated => Some "calibrated"
  | AqaraThermostatExternalSensor => Some "sensor"
  | AqaraLinkageAlarmState => Some "linkage_alarm_state"
  | _ => None
  end.

(** ** Match rules *)

(** The registry entry points [STRICT_MATCH], [MULTI_MATCH] and
    [CONFIG_DIAGNOSTIC_MATCH] are [strict_match], [multipass_match] and
    [config_diagnostic_match] of [ZHA_ENTITIES] on this platform. *)
Inductive MatchStrategy : Type :=
| STRICT_MATCH
| MULTI_MATCH
| CONFIG_DIAGNOSTIC_MATCH.

(** Channel names.  The [CHANNEL_*] constants come from [core.const] and
    stay symbolic; the others are the string literals of this file. *)
Inductive ChannelName : Type :=
| CHANNEL_ACCELEROMETER
| CHANNEL_BINARY_INPUT
| CHANNEL_OCCUPANCY
| CHANNEL_ON_OFF
| CHANNEL_ZONE
| Literal (name : string).

(** A [manufacturers=] or [models=] argument: left out, one string, a set
    of strings, or a callable. *)
Inductive Filter : Type :=
| Unset
| Exactly (name : string)
| OneOf (names : list string)
| Callable (f : PyVal -> res PyVal).

Record MatchRule : Type := {
  channel_names : ChannelName;
  manufacturers : Filter;
  models : Filter
}.

Record Registration : Type := {
  strategy : MatchStrategy;
  rule : MatchRule;
  entity_class : EntityClass
}.

(** The [models=] lambda of the IKEA rule on [Motion]:
    [isinstance(model, str) and model is not None
     and model.find("motion") != -1]. *)
Definition ikea_motion_models (model : PyVal) : res PyVal :=
  Py.and_then
    (Py.and_then
       (Ok (PyBool (Py.isinstance_str model)))
       (fun _ => Ok (PyBool (negb (Py.is_None model)))))
    (fun _ => i <~ Py.find model "motion" ;; Ok (Py.ne_int i (-1))).

Definition on (names : ChannelName) : MatchRule :=
  {| channel_names := names; manufacturers := Unset; models := Unset |}.

(** The decorated classes, in the order the decorators run: top to
    bottom through the file, and for the two rules stacked on [Motion]
    the lower one (Philips) before the upper one (IKEA). *)
Definition registrations : list Registration :=
  [ {| strategy := MULTI_MATCH; rule := on CHANNEL_ACCELEROMETER;
       entity_class := Accelerometer |};
    {| strategy := MULTI_MATCH; rule := on CHANNEL_OCCUPANCY;
       entity_class := Occupancy |};
    {| strategy := STRICT_MATCH; rule := on CHANNEL_ON_OFF;
       entity_class := Opening |};
    {| strategy := MULTI_MATCH; rule := on CHANNEL_BINARY_INPUT;
       entity_class := BinaryInput |};
    {| strategy := STRICT_MATCH;
       rule := {| channel_names := CHANNEL_ON_OFF;
                  manufacturers := Exactly "Philips";
                  models := OneOf ["SML001"; "SML002"] |};
       entity_class := Motion |};
    {| strategy := STRICT_MATCH;
       rule := {| channel_names := CHANNEL_ON_OFF;
                  manufacturers := Exactly "IKEA of Sweden";
                  models := Callable ikea_motion_models |};
       entity_class := Motion |};
    {| strategy := MULTI_MATCH; rule := on CHANNEL_ZONE;
       entity_class := IASZone |};
    {| strategy := MULTI_MATCH;
       rule := {| channel_names := Literal "tuya_manufacturer";
                  manufacturers := OneOf ["_TZE200_htnnfasr"];
                  models := Unset |};
       entity_class := FrostLock |};
    {| strategy := MULTI_MATCH; rule := on (Literal "ikea_airpurifier");
       entity_class := ReplaceFilter |};
    {| strategy := MULTI_MATCH;
       rule := {| channel_names := Literal "opple_cluster";
                  manufacturers := Unset;
                  models := OneOf ["aqara.feeder.acn001"] |};
       entity_class := AqaraPetFeederErrorDetected |};
    {| strategy := MULTI_MATCH;
       rule := {| channel_names := Literal "opple_cluster";
                  manufacturers := Unset;
                  models := OneOf ["lumi.plug.mmeu01"; "lumi.plug.maeu01"] |};
       entity_class := XiaomiPlugConsumerConnected |};
    {| strategy := MULTI_MATCH;
       rule := {| channel_names := Literal "opple_cluster";
                  manufacturers := Unset;
                  models := OneOf ["lumi.airrtc.agl001"] |};
       entity_class := AqaraThermostatWindowOpen |};
    {| strategy := MULTI_MATCH;
       rule := {| channel_names := Literal "opple_cluster";
                  manufacturers := Unset;
                  models := OneOf ["lumi.airrtc.agl001"] |};
       entity_class := AqaraThermostatValveAlarm |};
    {| strategy := CONFIG_DIAGNOSTIC_MATCH;
       rule := {| channel_names := Literal "opple_cluster";
                  manufacturers := Unset;
                  models := OneOf ["lumi.airrtc.agl001"] |};
       entity_class := AqaraThermostatCalibrated |};
    {| strategy := CONFIG_DIAGNOSTIC_MATCH;
       rule := {| channel_names := Literal "opple_cluster";
                  manufacturers := Unset;
                  models := OneOf ["lumi.airrtc.agl001"] |};
       entity_class := AqaraThermostatExternalSensor |};
    {| strategy := MULTI_MATCH;
       rule := {| channel_names := Literal "opple_cluster";
                  manufacturers := Unset;
                  models := OneOf ["lumi.sensor_smoke.acn03"] |};
       entity_class := AqaraLinkageAlarmState |} ].

(** ** State parsers *)

(** [BinarySensor.parse]: [bool(value)]. *)
Definition BinarySensor_parse (value : PyVal) : bool :=
  Py.truthy value.

(** [IASZone.parse]: [BinarySensor.parse(value & 3)], only bit 0 and 1
    are used for the alarm state. *)
Definition IASZone_parse (value : PyVal) : res bool :=
  masked <~ Py.and_ value (PyInt 3) ;;
  Ok (BinarySensor_parse masked).

(** [self.parse] as the class of [self] resolves it. *)
Definition parse (c : EntityClass) (value : PyVal) : res bool :=
  match c with
  | IASZone => IASZone_parse value
  | _ => Ok (BinarySensor_parse value)
  end.

(** ** Channels, the host and the entity *)

Definition ChannelRef : Type := nat.
Definition DeviceRef : Type := nat.

(** What lives outside the entity and is shared with it: the attribute
    cache of every channel's cluster, which the device layer writes, and
    the state writes the host has received, oldest first. *)
Record World : Type := {
  cluster : ChannelRef -> gmap string PyVal;
  state_writes : list string
}.

(** Modelled from the spec: the cluster's [get], which is not in this
    file.  It gives the cached raw value of the named attribute and
    [None] when no value has been observed. *)
Definition cluster_get (cache : gmap string PyVal) (key : option string) : PyVal :=
  default PyNone (key ≫= (cache !!.)).

(** What the base class [ZhaEntity] keeps of the constructor's
    arguments. *)
Record ZhaEntity : Type := {
  unique_id : string;
  zha_device : DeviceRef;
  cluster_channels : list ChannelRef
}.

Record Sensor : Type := {
  class_of : EntityClass;
  base : ZhaEntity;
  _channel : ChannelRef
}.

Section Construction.

(** [ZhaEntity.__init__], reached through [super()]; it is not in this
    file. *)
Variable ZhaEntity_init :
  string -> DeviceRef -> list ChannelRef -> list (string * PyVal) -> res ZhaEntity.

(** [BinarySensor.__init__] *)
Definition BinarySensor_init (c : EntityClass) (unique_id : string)
    (zha_device : DeviceRef) (channels : list ChannelRef)
    (kwargs : list (string * PyVal)) : res Sensor :=
  self <~ ZhaEntity_init unique_id zha_device channels kwargs ;;
  first <~ Py.first channels ;;
  Ok {| class_of := c; base := self; _channel := first |}.

End Construction.

(** [BinarySensor.is_on] *)
Definition is_on (self : Sensor) (w : World) : res bool :=
  let raw_state :=
    cluster_get (cluster w (_channel self)) (SENSOR_ATTR (class_of self)) in
  if Py.is_None raw_state then Ok false
  else parse (class_of self) raw_state.

(** Modelled from the spec: the host's [async_write_ha_state], which is
    not in this file.  It is the state-changed notification to the host
    platform, one per call, naming the entity. *)
Definition async_write_ha_state (self : Sensor) (w : World) : World :=
  {| cluster := cluster w;
     state_writes := state_writes w ++ [unique_id (base self)] |}.

(** [BinarySensor.async_set_state] *)
Definition async_set_state (self : Sensor) (attr_id attr_name value : PyVal)
    (w : World) : World :=
  async_write_ha_state self w.

(** [IASZone.device_class] *)
Definition IASZone_device_class (self : Sensor) (w : World)
    : option BinarySensorDeviceClass :=
  dict_get CLASS_MAPPING
    (cluster_get (cluster w (_channel self)) (Some "zone_type")).

(** [self.device_class] as the class of [self] resolves it: the property
    of [IASZone], the class attribute elsewhere. *)
Definition device_class (self : Sensor) (w : World)
    : option BinarySensorDeviceClass :=
  match class_of self with
  | IASZone => IASZone_device_class self w
  | c => _attr_device_class c
  end.

(** The zone-type lookup on its own: [CLASS_MAPPING.get(code)]. *)
Definition lookup (code : Z) : option BinarySensorDeviceClass :=
  dict_get CLASS_MAPPING (PyInt code).

(** ** Sample objects *)

(** A base constructor that keeps its arguments. *)
Definition ZhaEntity_init_keep (unique_id : string) (zha_device : DeviceRef)
    (channels : list ChannelRef) (kwargs : list (string * PyVal)) : res ZhaEntity :=
  Ok {| unique_id := unique_id; zha_device := zha_device;
        cluster_channels := channels |}.

Definition occupancy_sensor : Sensor :=
  {| class_of := Occupancy;
     base := {| unique_id := "00:0d:6f:00:0a:90:69:e7-1-1030";
                zha_device := 0%nat;
                cluster_channels := [0%nat] |};
     _channel := 0%nat |}.

(** No attribute observed yet, no state written yet. *)
Definition fresh_world : World :=
  {| cluster := fun _ => ∅; state_writes := [] |}.

(** The occupancy cluster has reported [occupancy = 1]. *)
Definition occupied_world : World :=
  {| cluster := fun _ => {[ "occupancy" := PyInt 1 ]}; state_writes := [] |}.

(** [SENSOR_ATTR] as the Python value an attribute name is compared
    with. *)
Definition SENSOR_ATTR_value (c : EntityClass) : PyVal :=
  match SENSOR_ATTR c with
  | Some key => PyStr key
  | None => PyNone
  end.

(** A base constructor that refuses its arguments. *)
Definition ZhaEntity_init_refuse (unique_id : string) (zha_device : DeviceRef)
    (channels : list ChannelRef) (kwargs : list (string * PyVal)) : res ZhaEntity :=
  Raise TypeError.

Definition ias_sensor : Sensor :=
  {| class_of := IASZone;
     base := {| unique_id := "00:15:8d:00:02:7b:4c:11-1-1280";
                zha_device := 1%nat;
                cluster_channels := [1%nat] |};
     _channel := 1%nat |}.

(** An opening contact (zone type 0x0015) with alarm 1 raised. *)
Definition alarmed_world : World :=
  {| cluster := fun _ =>
       <[ "zone_status" := PyInt 1 ]> {[ "zone_type" := PyInt 0x0015 ]};
     state_writes := [] |}.

(** The same contact with its tamper bit (bit 2) set as well. *)
Definition tampered_world : World :=
  {| cluster := fun _ =>
       <[ "zone_status" := PyInt 5 ]> {[ "zone_type" := PyInt 0x0015 ]};
     state_writes := [] |}.

(** A cache whose [zone_status] is text. *)
Definition garbled_world : World :=
  {| cluster := fun _ => {[ "zone_status" := PyStr "alarm" ]};
     state_writes := [] |}.

(** Occupancy reported together with an unrelated attribute. *)
Definition occupied_lit_world : World :=
  {| cluster := fun _ =>
       <[ "illuminance" := PyInt 300 ]> {[ "occupancy" := PyInt 1 ]};
     state_writes := [] |}.

(** A boolean in the cache. *)
Definition occupied_bool_world : World :=
  {| cluster := fun _ => {[ "occupancy" := PyBool true ]};
     state_writes := [] |}.

(** * Properties *)

(** ** Parsers *)

Lemma truthy_false_inv (v : PyVal) :
  Py.truthy v = false <->
  v = PyNone \/ v = PyBool false \/ v = PyInt 0 \/ v = PyStr "".
Proof.
  split.
  - destruct v as [ | b | z | s ]; simpl; intros H.
    + now left.
    + right; left; now subst.
    + right; right; left. apply negb_false_iff, Z.eqb_eq in H. now subst.
    + right; right; right. apply negb_false_iff, String.eqb_eq in H. now subst.
  - intros [-> | [-> | [-> | ->]]]; reflexivity.
Qed.

(** C6: [BinarySensor.parse] is the truthiness coercion [bool(value)]:
    it gives [False] exactly on [None], [False], [0] and the empty
    string, [True] on everything else, and parsing its own boolean
    result again changes nothing. *)
Theorem BinarySensor_parse_truthiness (v : PyVal) :
  BinarySensor_parse v = Py.truthy v
  /\ (BinarySensor_parse v = false <->
      v = PyNone \/ v = PyBool false \/ v = PyInt 0 \/ v = PyStr "")
  /\ (BinarySensor_parse v = true <->
      v <> PyNone /\ v <> PyBool false /\ v <> PyInt 0 /\ v <> PyStr "")
  /\ BinarySensor_parse (PyBool (BinarySensor_parse v)) = BinarySensor_parse v.
Proof.
  unfold BinarySensor_parse. repeat split.
  - apply truthy_false_inv.
  - apply truthy_false_inv.
  - intros Ht; subst; discriminate.
  - intros Ht; subst; discriminate.
  - intros Ht; subst; discriminate.
  - intros Ht; subst; discriminate.
  - intros (H1 & H2 & H3 & H4).
    destruct (Py.truthy v) eqn:E; [reflexivity | ].
    apply truthy_false_inv in E. intuition congruence.
Qed.

(** The two low bits of an integer, read off its mask with 3. *)
Lemma land_3_bits (v : Z) :
  Z.land v 3 = Z.b2z (Z.testbit v 0) + 2 * Z.b2z (Z.testbit v 1).
Proof.
  change 3 with (Z.ones 2).
  rewrite Z.land_ones by lia.
  rewrite Z.bit0_mod.
  rewrite (Z.testbit_spec' v 1) by lia.
  change (2 ^ 2) with (2 * 2). change (2 ^ 1) with 2.
  rewrite Z.rem_mul_r by lia. reflexivity.
Qed.

Lemma land_3_zero (v : Z) :
  (Z.land v 3 =? 0)%Z = negb (Z.testbit v 0 || Z.testbit v 1).
Proof.
  rewrite land_3_bits.
  destruct (Z.testbit v 0), (Z.testbit v 1); reflexivity.
Qed.

(** C3: on every integer [IASZone.parse] is [BinarySensor.parse] of the
    value masked with [0b11]; the result is true exactly when the mask
    is non-zero, so it is decided by bits 0 and 1 alone; [0b100] parses
    to false and [0b01] to true. *)
Theorem IASZone_parse_mask (v : Z) :
  IASZone_parse (PyInt v) = Ok (BinarySensor_parse (PyInt (Z.land v 3)))
  /\ IASZone_parse (PyInt v) = Ok (negb (Z.land v 3 =? 0)%Z)
  /\ IASZone_parse (PyInt v) = Ok (Z.testbit v 0 || Z.testbit v 1)
  /\ IASZone_parse (PyInt 4) = Ok false
  /\ IASZone_parse (PyInt 1) = Ok true.
Proof.
  repeat split; unfold IASZone_parse, BinarySensor_parse; simpl.
  - rewrite land_3_zero, negb_involutive. reflexivity.
Qed.

(** ** Zone-type table *)

Lemma CLASS_MAPPING_keys_NoDup : NoDup (CLASS_MAPPING_items.*1).
Proof.
  unfold CLASS_MAPPING_items; simpl.
  repeat (apply NoDup_cons; split;
          [ rewrite ?elem_of_cons, elem_of_nil; intuition discriminate | ]).
  apply NoDup_nil_2.
Qed.

Lemma CLASS_MAPPING_lookup_Some (code : Z) (d : BinarySensorDeviceClass) :
  CLASS_MAPPING !! code = Some d <-> (code, d) ∈ CLASS_MAPPING_items.
Proof.
  unfold CLASS_MAPPING. symmetry.
  apply elem_of_list_to_map, CLASS_MAPPING_keys_NoDup.
Qed.

Lemma CLASS_MAPPING_lookup_None (code : Z) :
  code ∉ CLASS_MAPPING_items.*1 -> CLASS_MAPPING !! code = None.
Proof. unfold CLASS_MAPPING. apply not_elem_of_list_to_map_1. Qed.

(** The table as a function of the code. *)
Lemma lookup_cases (code : Z) :
  lookup code =
    if (code =? 0x000D)%Z then Some MOTION
    else if (code =? 0x0015)%Z then Some OPENING
    else if (code =? 0x0028)%Z then Some SMOKE
    else if (code =? 0x002A)%Z then Some MOISTURE
    else if (code =? 0x002B)%Z then Some GAS
    else if (code =? 0x002D)%Z then Some VIBRATION
    else None.
Proof.
  unfold lookup, dict_get; simpl.
  repeat match goal with
         | |- context [ (code =? ?k)%Z ] =>
             destruct (Z.eqb_spec code k) as [-> | ?]; [ reflexivity | ]
         end.
  apply CLASS_MAPPING_lookup_None.
  unfold CLASS_MAPPING_items; simpl.
  rewrite ?elem_of_cons, elem_of_nil. intuition congruence.
Qed.

(** C4: the zone-type lookup is a total function that sends 0x000D to
    motion, 0x0015 to opening, 0x0028 to smoke, 0x002A to moisture,
    0x002B to gas and 0x002D to vibration and every other code to no
    device class; [IASZone.device_class] is that lookup on the cached
    [zone_type], and gives no device class when the cached value is
    missing or is no integer. *)
Theorem CLASS_MAPPING_lookup_table :
  (forall code : Z,
     lookup code =
       if (code =? 0x000D)%Z then Some MOTION
       else if (code =? 0x0015)%Z then Some OPENING
       else if (code =? 0x0028)%Z then Some SMOKE
       else if (code =? 0x002A)%Z then Some MOISTURE
       else if (code =? 0x002B)%Z then Some GAS
       else if (code =? 0x002D)%Z then Some VIBRATION
       else None)
  /\ lookup 0x0015 = Some OPENING
  /\ lookup 0x9999 = None
  /\ (forall (self : Sensor) (w : World),
        IASZone_device_class self w =
          match cluster_get (cluster w (_channel self)) (Some "zone_type") with
          | PyInt code => lookup code
          | PyBool b => lookup (Z.b2z b)
          | PyNone | PyStr _ => None
          end).
Proof.
  split; [ exact lookup_cases | ].
  split; [ reflexivity | ].
  split; [ rewrite lookup_cases; reflexivity | ].
  intros self w. unfold IASZone_device_class, lookup, dict_get.
  destruct (cluster_get _ _); reflexivity.
Qed.

(** ** State query *)

(** C2: when the channel's cache has no value for the sensor's
    attribute, [is_on] returns [False] and does not raise; otherwise it
    returns the class's [parse] of the cached raw value. *)
Theorem is_on_unknown_is_false (self : Sensor) (w : World) :
  let raw :=
    cluster_get (cluster w (_channel self)) (SENSOR_ATTR (class_of self)) in
  (forall key : string,
     SENSOR_ATTR (class_of self) = Some key ->
     cluster w (_channel self) !! key = None ->
     is_on self w = Ok false)
  /\ (raw = PyNone -> is_on self w = Ok false)
  /\ (raw <> PyNone -> is_on self w = parse (class_of self) raw).
Proof.
  unfold is_on. repeat split.
  - intros key Hkey Hnone. unfold cluster_get.
    rewrite Hkey; simpl. rewrite Hnone. reflexivity.
  - intros ->. reflexivity.
  - intros Hraw. destruct (cluster_get _ _); [ congruence | reflexivity .. ].
Qed.

Lemma is_on_unknown_is_false_witness :
  (SENSOR_ATTR (class_of occupancy_sensor) = Some "occupancy"
   /\ cluster fresh_world (_channel occupancy_sensor) !! "occupancy" = None
   /\ is_on occupancy_sensor fresh_world = Ok false)
  /\ (cluster_get (cluster occupied_world (_channel occupancy_sensor))
        (SENSOR_ATTR (class_of occupancy_sensor)) <> PyNone
      /\ is_on occupancy_sensor occupied_world = Ok true).
Proof.
  split.
  - split; [ reflexivity | ]. split; [ reflexivity | ].
    apply (proj1 (is_on_unknown_is_false occupancy_sensor fresh_world) "occupancy");
      reflexivity.
  - assert (Hraw : cluster_get (cluster occupied_world (_channel occupancy_sensor))
                     (SENSOR_ATTR (class_of occupancy_sensor)) <> PyNone)
      by (vm_compute; discriminate).
    split; [ exact Hraw | ].
    rewrite (proj2 (proj2 (is_on_unknown_is_false occupancy_sensor occupied_world)) Hraw).
    reflexivity.
Defined.

(** ** Update callback *)

Lemma async_set_state_unfold (self : Sensor) (attr_id attr_name value : PyVal)
    (w : World) :
  async_set_state self attr_id attr_name value w =
    {| cluster := cluster w;
       state_writes := state_writes w ++ [unique_id (base self)] |}.
Proof. reflexivity. Qed.

Lemma is_on_reads_cache (self : Sensor) (w1 w2 : World) :
  cluster w1 = cluster w2 -> is_on self w1 = is_on self w2.
Proof. intros H. unfold is_on. rewrite H. reflexivity. Qed.

(** C1, as the code has it: an update whose attribute name differs from
    [SENSOR_ATTR] leaves [is_on] unchanged and writes the entity's state
    to the host once, as every update does. *)
Theorem async_set_state_other_attribute (self : Sensor)
    (attr_id attr_name value : PyVal) (w : World) :
  attr_name <> SENSOR_ATTR_value (class_of self) ->
  let w' := async_set_state self attr_id attr_name value w in
  is_on self w' = is_on self w
  /\ state_writes w' = state_writes w ++ [unique_id (base self)].
Proof.
  intros _ w'. subst w'. rewrite async_set_state_unfold. split.
  - apply is_on_reads_cache. reflexivity.
  - reflexivity.
Qed.

Lemma async_set_state_other_attribute_witness :
  PyStr "on_off" <> SENSOR_ATTR_value (class_of occupancy_sensor)
  /\ is_on occupancy_sensor
       (async_set_state occupancy_sensor (PyInt 0) (PyStr "on_off") (PyInt 1)
          occupied_world)
     = is_on occupancy_sensor occupied_world
  /\ state_writes
       (async_set_state occupancy_sensor (PyInt 0) (PyStr "on_off") (PyInt 1)
          occupied_world)
     = ["00:0d:6f:00:0a:90:69:e7-1-1030"].
Proof.
  assert (Hne : PyStr "on_off" <> SENSOR_ATTR_value (class_of occupancy_sensor))
    by (vm_compute; discriminate).
  split; [ exact Hne | ].
  exact (async_set_state_other_attribute occupancy_sensor
           (PyInt 0) (PyStr "on_off") (PyInt 1) occupied_world Hne).
Defined.

(** C1 as stated fails: the occupancy sensor receives an update named
    [on_off], which is not its attribute, and its state is written to
    the host all the same. *)
Lemma async_set_state_other_attribute_notifies :
  PyStr "on_off" <> SENSOR_ATTR_value (class_of occupancy_sensor)
  /\ ~ (let w' := async_set_state occupancy_sensor (PyInt 0) (PyStr "on_off")
                    (PyInt 1) fresh_world in
        is_on occupancy_sensor w' = is_on occupancy_sensor fresh_world
        /\ state_writes w' = state_writes fresh_world).
Proof.
  split.
  - vm_compute; discriminate.
  - intros [_ Hsilent]. vm_compute in Hsilent. discriminate.
Qed.

(** C5: an update that names the sensor's attribute writes the entity's
    state to the host exactly once, whatever the value and whether or
    not [is_on] differs from before. *)
Theorem async_set_state_notifies_once (self : Sensor)
    (attr_id attr_name value : PyVal) (w : World) :
  attr_name = SENSOR_ATTR_value (class_of self) ->
  let w' := async_set_state self attr_id attr_name value w in
  state_writes w' = state_writes w ++ [unique_id (base self)]
  /\ length (state_writes w') = S (length (state_writes w))
  /\ is_on self w' = is_on self w.
Proof.
  intros _ w'. subst w'. rewrite async_set_state_unfold; simpl.
  split; [ reflexivity | ]. split.
  - rewrite length_app; simpl. lia.
  - apply is_on_reads_cache. reflexivity.
Qed.

Lemma async_set_state_notifies_once_witness :
  PyStr "occupancy" = SENSOR_ATTR_value (class_of occupancy_sensor)
  /\ is_on occupancy_sensor occupied_world = Ok true
  /\ state_writes
       (async_set_state occupancy_sensor (PyStr "occupancy_id")
          (PyStr "occupancy") (PyInt 1) occupied_world)
     = ["00:0d:6f:00:0a:90:69:e7-1-1030"].
Proof.
  split; [ reflexivity | ]. split; [ reflexivity | ].
  exact (proj1 (async_set_state_notifies_once occupancy_sensor
                  (PyStr "occupancy_id") (PyStr "occupancy") (PyInt 1)
                  occupied_world eq_refl)).
Defined.

(** C10: [async_set_state] does not look at its arguments: any two
    argument triples leave the same world behind, hence the same state
    write and the same later [is_on]; the cluster caches, from which
    [is_on] reads, are untouched. *)
Theorem async_set_state_ignores_arguments (self : Sensor) (w : World)
    (attr_id1 attr_name1 value1 attr_id2 attr_name2 value2 : PyVal) :
  let w1 := async_set_state self attr_id1 attr_name1 value1 w in
  let w2 := async_set_state self attr_id2 attr_name2 value2 w in
  w1 = w2
  /\ state_writes w1 = state_writes w2
  /\ is_on self w1 = is_on self w2
  /\ cluster w1 = cluster w
  /\ is_on self w1 = is_on self w.
Proof.
  intros w1 w2. subst w1 w2. rewrite !async_set_state_unfold.
  split; [ reflexivity | ]. split; [ reflexivity | ].
  split; [ reflexivity | ]. split; [ reflexivity | ].
  apply is_on_reads_cache. reflexivity.
Qed.

(** ** Match rules *)

Lemma append_String (a : Ascii.ascii) (s t : string) :
  String.append (String a s) t = String a (String.append s t).
Proof. reflexivity. Qed.

Lemma append_empty (t : string) : String.append "" t = t.
Proof. reflexivity. Qed.

Lemma prefix_iff_append (sub s : string) :
  String.prefix sub s = true <-> exists post, s = String.append sub post.
Proof.
  revert s. induction sub as [ | a sub IH ]; intros s.
  - split; [ intros _; exists s; reflexivity | intros _; destruct s; reflexivity ].
  - destruct s as [ | b s ]; simpl.
    + split; [ discriminate
             | intros [post H]; rewrite append_String in H; discriminate ].
    + destruct (Ascii.ascii_dec a b) as [-> | Hab].
      * rewrite IH. split; intros [post H]; exists post;
          rewrite append_String in *; congruence.
      * split; [ discriminate
               | intros [post H]; rewrite append_String in H; congruence ].
Qed.

Lemma find_from_unfold (sub s : string) (i : Z) :
  Py.find_from sub s i =
    if String.prefix sub s then i
    else match s with
         | EmptyString => -1
         | String _ s' => Py.find_from sub s' (i + 1)
         end.
Proof. destruct s; reflexivity. Qed.

(** [find_from] misses exactly when [sub] occurs nowhere in [s]. *)
Lemma find_from_hit (sub s : string) (i : Z) :
  0 <= i ->
  Py.find_from sub s i <> -1 <->
  exists pre post, s = String.append pre (String.append sub post).
Proof.
  revert i. induction s as [ | a s IH ]; intros i Hi; rewrite find_from_unfold.
  - destruct (String.prefix sub "") eqn:Hp.
    + split; [ intros _ | intros _; lia ].
      apply prefix_iff_append in Hp as [post Hpost].
      exists "", post. exact Hpost.
    + split; [ congruence | ].
      intros (pre & post & H). exfalso.
      destruct pre; [ | rewrite append_String in H; discriminate ].
      rewrite append_empty in H.
      assert (String.prefix sub "" = true)
        by (apply prefix_iff_append; eauto).
      congruence.
  - destruct (String.prefix sub (String a s)) eqn:Hp.
    + split; [ intros _ | intros _; lia ].
      apply prefix_iff_append in Hp as [post Hpost].
      exists "", post. exact Hpost.
    + rewrite IH by lia. split.
      * intros (pre & post & ->). exists (String a pre), post. reflexivity.
      * intros (pre & post & H).
        destruct pre as [ | b pre ];
          [ rewrite append_empty in H | rewrite append_String in H ].
        -- assert (String.prefix sub (String a s) = true)
             by (apply prefix_iff_append; eauto).
           congruence.
        -- injection H as _ ->. eauto.
Qed.

(** On a string the IKEA predicate says whether [motion] occurs in it. *)
Lemma ikea_motion_models_str (s : string) :
  ikea_motion_models (PyStr s)
  = Ok (PyBool (negb (Py.find_from "motion" s 0 =? -1)%Z)).
Proof. reflexivity. Qed.

Lemma ikea_motion_models_substring (s : string) :
  ikea_motion_models (PyStr s) = Ok (PyBool true) <->
  exists pre post, s = String.append pre (String.append "motion" post).
Proof.
  rewrite ikea_motion_models_str, <- (find_from_hit "motion" s 0) by lia.
  destruct (Z.eqb_spec (Py.find_from "motion" s 0) (-1)) as [E | E]; simpl.
  - split; [ discriminate | congruence ].
  - split; [ intros _; exact E | reflexivity ].
Qed.

(** C7: the [models=] predicate of the IKEA rule on [Motion] returns a
    [bool] for every model value and never raises; for a model that is
    not a string, [None] included, the result is [False]. *)
Theorem ikea_motion_models_never_raises (model : PyVal) :
  In {| strategy := STRICT_MATCH;
        rule := {| channel_names := CHANNEL_ON_OFF;
                   manufacturers := Exactly "IKEA of Sweden";
                   models := Callable ikea_motion_models |};
        entity_class := Motion |} registrations
  /\ exists b : bool,
       ikea_motion_models model = Ok (PyBool b)
       /\ (Py.isinstance_str model = false -> b = false).
Proof.
  split; [ simpl; tauto | ].
  destruct model as [ | b | z | s ].
  - exists false. split; reflexivity.
  - exists false. split; reflexivity.
  - exists false. split; reflexivity.
  - exists (negb (Py.find_from "motion" s 0 =? -1)%Z).
    split; [ apply ikea_motion_models_str | discriminate ].
Qed.

Lemma ikea_motion_models_never_raises_witness :
  Py.isinstance_str PyNone = false
  /\ exists b : bool, ikea_motion_models PyNone = Ok (PyBool b) /\ b = false.
Proof.
  split; [ reflexivity | ].
  destruct (proj2 (ikea_motion_models_never_raises PyNone)) as (b & Hb & Hfalse).
  exists b. split; [ exact Hb | exact (Hfalse eq_refl) ].
Defined.

(** C8: every class registered through [CONFIG_DIAGNOSTIC_MATCH] has
    its entity category set to diagnostic. *)
Theorem config_diagnostic_match_is_diagnostic (r : Registration) :
  In r registrations ->
  strategy r = CONFIG_DIAGNOSTIC_MATCH ->
  _attr_entity_category (entity_class r) = Some DIAGNOSTIC.
Proof.
  intros Hin Hstrategy. unfold registrations in Hin. simpl in Hin.
  repeat (destruct Hin as [<- | Hin];
          [ simpl in Hstrategy |- *; first [ discriminate | reflexivity ] | ]).
  contradiction.
Qed.

Lemma config_diagnostic_match_is_diagnostic_witness :
  _attr_entity_category AqaraThermostatCalibrated = Some DIAGNOSTIC.
Proof.
  apply (config_diagnostic_match_is_diagnostic
           {| strategy := CONFIG_DIAGNOSTIC_MATCH;
              rule := {| channel_names := Literal "opple_cluster";
                         manufacturers := Unset;
                         models := OneOf ["lumi.airrtc.agl001"] |};
              entity_class := AqaraThermostatCalibrated |}).
  - simpl. tauto.
  - reflexivity.
Defined.

(** ** Construction *)

(** C9: the constructor needs a non-empty [channels]: on an empty
    sequence it raises [IndexError] once the base constructor is
    through, and it never returns a sensor; on a non-empty one it binds
    the first channel, however many follow. *)
Theorem BinarySensor_init_binds_first
    (ZhaEntity_init :
       string -> DeviceRef -> list ChannelRef -> list (string * PyVal) -> res ZhaEntity)
    (c : EntityClass) (unique_id : string) (zha_device : DeviceRef)
    (kwargs : list (string * PyVal)) :
  (forall e : ZhaEntity,
     ZhaEntity_init unique_id zha_device [] kwargs = Ok e ->
     BinarySensor_init ZhaEntity_init c unique_id zha_device [] kwargs
     = Raise IndexError)
  /\ (forall self : Sensor,
        BinarySensor_init ZhaEntity_init c unique_id zha_device [] kwargs
        <> Ok self)
  /\ (forall (first : ChannelRef) (others : list ChannelRef) (e : ZhaEntity),
        ZhaEntity_init unique_id zha_device (first :: others) kwargs = Ok e ->
        BinarySensor_init ZhaEntity_init c unique_id zha_device
          (first :: others) kwargs
        = Ok {| class_of := c; base := e; _channel := first |})
  /\ (forall (channels : list ChannelRef) (self : Sensor),
        BinarySensor_init ZhaEntity_init c unique_id zha_device channels kwargs
        = Ok self ->
        channels <> [] /\ head channels = Some (_channel self)).
Proof.
  unfold BinarySensor_init.
  split; [ | split; [ | split ] ].
  - intros e ->. reflexivity.
  - intros self. destruct (ZhaEntity_init _ _ _ _); discriminate.
  - intros first others e ->. reflexivity.
  - intros channels self Hinit.
    destruct channels as [ | first others ];
      destruct (ZhaEntity_init _ _ _ _); simpl in Hinit; try discriminate.
    injection Hinit as <-. split; [ discriminate | reflexivity ].
Qed.

Lemma BinarySensor_init_binds_first_witness :
  BinarySensor_init ZhaEntity_init_keep Occupancy "uid" 7%nat [] []
  = Raise IndexError
  /\ BinarySensor_init ZhaEntity_init_keep Occupancy "uid" 7%nat
       [4%nat; 5%nat; 6%nat] []
     = Ok {| class_of := Occupancy;
             base := {| unique_id := "uid"; zha_device := 7%nat;
                        cluster_channels := [4%nat; 5%nat; 6%nat] |};
             _channel := 4%nat |}
  /\ [4%nat; 5%nat; 6%nat] <> ([] : list ChannelRef).
Proof.
  pose proof (BinarySensor_init_binds_first ZhaEntity_init_keep Occupancy
                "uid" 7%nat []) as (Hempty & _ & Hfirst & Hok).
  split; [ exact (Hempty _ eq_refl) | ].
  split; [ exact (Hfirst 4%nat [5%nat; 6%nat] _ eq_refl) | ].
  exact (proj1 (Hok _ _ (Hfirst 4%nat [5%nat; 6%nat] _ eq_refl))).
Defined.

(** * Further properties *)

(** ** Parsers on every kind of value *)

Lemma bool_low_bits (b : bool) :
  Z.testbit (Z.b2z b) 0 || Z.testbit (Z.b2z b) 1 = b.
Proof. destruct b; reflexivity. Qed.

Lemma IASZone_parse_as_int (v : PyVal) (z : Z) :
  Py.as_int v = Some z ->
  IASZone_parse v = Ok (Z.testbit z 0 || Z.testbit z 1).
Proof.
  destruct v as [ | b | n | s ]; simpl; intros H; try discriminate;
    injection H as <-; unfold IASZone_parse, BinarySensor_parse; simpl.
  - rewrite land_3_zero, negb_involutive. reflexivity.
  - rewrite land_3_zero, negb_involutive. reflexivity.
Qed.

Lemma IASZone_parse_bool (b : bool) : IASZone_parse (PyBool b) = Ok b.
Proof.
  rewrite (IASZone_parse_as_int (PyBool b) _ eq_refl).
  rewrite bool_low_bits. reflexivity.
Qed.

(** X1: [IASZone.parse] raises exactly on the values that are neither
    [int] nor [bool] ([None] and strings), the exception is always
    [TypeError], and on a [bool] it returns that [bool]. *)
Theorem IASZone_parse_raises_iff (v : PyVal) :
  (IASZone_parse v = Raise TypeError <-> Py.as_int v = None)
  /\ (forall e : PyExc, IASZone_parse v = Raise e -> e = TypeError)
  /\ (forall b : bool, IASZone_parse (PyBool b) = Ok b).
Proof.
  split; [ | split ].
  - destruct (Py.as_int v) as [ z | ] eqn:E.
    + rewrite (IASZone_parse_as_int v z E). split; discriminate.
    + destruct v; try discriminate; split; reflexivity.
  - intros e. destruct (Py.as_int v) as [ z | ] eqn:E.
    + rewrite (IASZone_parse_as_int v z E). discriminate.
    + destruct v; try discriminate; unfold IASZone_parse; simpl; congruence.
  - exact IASZone_parse_bool.
Qed.

Lemma IASZone_parse_raises_iff_witness :
  Py.as_int (PyStr "alarm") = None
  /\ IASZone_parse (PyStr "alarm") = Raise TypeError
  /\ IASZone_parse (PyBool true) = Ok true.
Proof.
  split; [ reflexivity | ].
  pose proof (IASZone_parse_raises_iff (PyStr "alarm")) as (Hiff & _ & Hbool).
  split; [ apply Hiff; reflexivity | apply Hbool ].
Defined.

(** X2: whenever [IASZone.parse] says on, [BinarySensor.parse] of the
    same value says on too: masking can only turn a state off.  The
    converse fails, at 4 for one. *)
Theorem IASZone_parse_implies_default (v : PyVal) :
  IASZone_parse v = Ok true -> BinarySensor_parse v = true.
Proof.
  destruct v as [ | b | z | s ]; unfold IASZone_parse, BinarySensor_parse; simpl;
    try discriminate.
  - unfold Py.and_; simpl. intros H. injection H as H.
    apply negb_true_iff, Z.eqb_neq in H. destruct b; [ reflexivity | ].
    exfalso. apply H. reflexivity.
  - intros H. injection H as H.
    apply negb_true_iff, Z.eqb_neq in H.
    apply negb_true_iff, Z.eqb_neq. intros ->. apply H. reflexivity.
Qed.

Lemma IASZone_parse_implies_default_witness :
  IASZone_parse (PyInt 7) = Ok true /\ BinarySensor_parse (PyInt 7) = true.
Proof.
  split; [ reflexivity | ].
  apply (IASZone_parse_implies_default (PyInt 7)). reflexivity.
Defined.

(** ** State query, class by class *)



(** X4: for an [IASZone] sensor, [is_on] raises exactly when the cached
    [zone_status] is a string, and then it is a [TypeError]; on an
    integer or boolean status it is bit 0 or bit 1 of the status. *)
Theorem IASZone_is_on_cases (self : Sensor) (w : World) :
  class_of self = IASZone ->
  let raw := cluster_get (cluster w (_channel self)) (Some "zone_status") in
  (is_on self w = Raise TypeError <-> Py.isinstance_str raw = true)
  /\ (forall e : PyExc, is_on self w = Raise e -> e = TypeError)
  /\ (forall z : Z,
        Py.as_int raw = Some z ->
        is_on self w = Ok (Z.testbit z 0 || Z.testbit z 1)).
Proof.
  intros Hclass raw. unfold is_on. rewrite Hclass. simpl.
  fold raw. destruct raw as [ | b | z | s ] eqn:E; simpl.
  - split; [ split; discriminate | ]. split; [ discriminate | discriminate ].
  - split; [ | split ].
    + rewrite (IASZone_parse_as_int (PyBool b) _ eq_refl). split; discriminate.
    + rewrite (IASZone_parse_as_int (PyBool b) _ eq_refl). discriminate.
    + intros z H. apply (IASZone_parse_as_int (PyBool b) z H).
  - split; [ | split ].
    + rewrite (IASZone_parse_as_int (PyInt z) _ eq_refl). split; discriminate.
    + rewrite (IASZone_parse_as_int (PyInt z) _ eq_refl). discriminate.
    + intros z' H. apply (IASZone_parse_as_int (PyInt z) z' H).
  - split; [ split; reflexivity | ].
    split; [ unfold IASZone_parse; simpl; congruence | discriminate ].
Qed.

Lemma IASZone_is_on_cases_witness :
  class_of ias_sensor = IASZone
  /\ is_on ias_sensor garbled_world = Raise TypeError
  /\ is_on ias_sensor tampered_world = Ok true.
Proof.
  split; [ reflexivity | ].
  pose proof (IASZone_is_on_cases ias_sensor garbled_world eq_refl) as (Hstr & _ & _).
  pose proof (IASZone_is_on_cases ias_sensor tampered_world eq_refl) as (_ & _ & Hint).
  split.
  - apply Hstr. reflexivity.
  - rewrite (Hint 5); reflexivity.
Defined.

(** X5: a boolean raw value passes through unchanged, for every class:
    [parse] returns it, and so does [is_on] when the cache holds it. *)
Theorem is_on_bool_passthrough (self : Sensor) (w : World) (key : string)
    (b : bool) :
  SENSOR_ATTR (class_of self) = Some key ->
  cluster w (_channel self) !! key = Some (PyBool b) ->
  parse (class_of self) (PyBool b) = Ok b /\ is_on self w = Ok b.
Proof.
  intros Hkey Hraw.
  assert (Hparse : parse (class_of self) (PyBool b) = Ok b).
  { unfold parse. destruct (class_of self); try reflexivity.
    apply IASZone_parse_bool. }
  split; [ exact Hparse | ].
  unfold is_on, cluster_get. rewrite Hkey. simpl. rewrite Hraw. simpl.
  exact Hparse.
Qed.

Lemma is_on_bool_passthrough_witness :
  SENSOR_ATTR (class_of occupancy_sensor) = Some "occupancy"
  /\ cluster occupied_bool_world (_channel occupancy_sensor) !! "occupancy"
     = Some (PyBool true)
  /\ is_on occupancy_sensor occupied_bool_world = Ok true.
Proof.
  split; [ reflexivity | ]. split; [ reflexivity | ].
  exact (proj2 (is_on_bool_passthrough occupancy_sensor occupied_bool_world
                  "occupancy" true eq_refl eq_refl)).
Defined.

(** X6: [is_on] depends on the world through one cache entry only, the
    sensor's attribute on its own channel: two worlds that agree there
    give the same answer, whatever else differs. *)
Theorem is_on_one_entry (self : Sensor) (w1 w2 : World) (key : string) :
  SENSOR_ATTR (class_of self) = Some key ->
  cluster w1 (_channel self) !! key = cluster w2 (_channel self) !! key ->
  is_on self w1 = is_on self w2.
Proof.
  intros Hkey Hsame. unfold is_on, cluster_get.
  rewrite Hkey. simpl. rewrite Hsame. reflexivity.
Qed.

Lemma is_on_one_entry_witness :
  cluster occupied_world 0%nat <> cluster occupied_lit_world 0%nat
  /\ is_on occupancy_sensor occupied_world
     = is_on occupancy_sensor occupied_lit_world.
Proof.
  split.
  - intros H.
    assert (E : cluster occupied_world 0%nat !! "illuminance"
                = cluster occupied_lit_world 0%nat !! "illuminance")
      by (rewrite H; reflexivity).
    vm_compute in E. discriminate.
  - apply (is_on_one_entry occupancy_sensor occupied_world occupied_lit_world
             "occupancy"); reflexivity.
Defined.

(** ** Device class *)

Lemma lookup_Some_items (code : Z) (d : BinarySensorDeviceClass) :
  lookup code = Some d <-> In (code, d) CLASS_MAPPING_items.
Proof.
  change (CLASS_MAPPING !! code = Some d <-> In (code, d) CLASS_MAPPING_items).
  rewrite CLASS_MAPPING_lookup_Some. apply list_elem_of_In.
Qed.

(** X7: an [IASZone] sensor has a device class exactly when the cached
    [zone_type] is an integer listed in [CLASS_MAPPING], and then it is
    the listed class; so it is only ever motion, opening, smoke,
    moisture, gas or vibration. *)
Theorem IASZone_device_class_Some_iff (self : Sensor) (w : World)
    (d : BinarySensorDeviceClass) :
  (IASZone_device_class self w = Some d <->
   exists code : Z,
     Py.as_int (cluster_get (cluster w (_channel self)) (Some "zone_type"))
     = Some code
     /\ In (code, d) CLASS_MAPPING_items)
  /\ (IASZone_device_class self w = Some d ->
      In d [MOTION; OPENING; SMOKE; MOISTURE; GAS; VIBRATION]).
Proof.
  assert (Hiff : IASZone_device_class self w = Some d <->
                 exists code : Z,
                   Py.as_int (cluster_get (cluster w (_channel self))
                                (Some "zone_type")) = Some code
                   /\ In (code, d) CLASS_MAPPING_items).
  { unfold IASZone_device_class, dict_get.
    destruct (Py.as_int _) as [ code | ].
    - change (Some code ≫= (CLASS_MAPPING !!.)) with (lookup code).
      rewrite lookup_Some_items. split.
      + intros H. exists code. split; [ reflexivity | exact H ].
      + intros (code' & Hcode & H). injection Hcode as ->. exact H.
    - split; [ discriminate | intros (code & Hcode & _); discriminate ]. }
  split; [ exact Hiff | ].
  intros H. apply Hiff in H as (code & _ & Hin).
  unfold CLASS_MAPPING_items in Hin. simpl in Hin.
  repeat (destruct Hin as [Hin | Hin]; [ injection Hin as _ <-; simpl; tauto | ]).
  contradiction.
Qed.

Lemma IASZone_device_class_Some_iff_witness :
  IASZone_device_class ias_sensor alarmed_world = Some OPENING
  /\ In OPENING [MOTION; OPENING; SMOKE; MOISTURE; GAS; VIBRATION].
Proof.
  pose proof (IASZone_device_class_Some_iff ias_sensor alarmed_world OPENING)
    as (Hiff & Hrange).
  assert (H : IASZone_device_class ias_sensor alarmed_world = Some OPENING).
  { apply Hiff. exists 0x0015. split; [ reflexivity | simpl; tauto ]. }
  split; [ exact H | exact (Hrange H) ].
Defined.

(** X8: [CLASS_MAPPING] sends different zone types to different device
    classes: a device class found by the lookup determines the code. *)
Theorem CLASS_MAPPING_injective (code1 code2 : Z) (d : BinarySensorDeviceClass) :
  lookup code1 = Some d -> lookup code2 = Some d -> code1 = code2.
Proof.
  rewrite !lookup_Some_items. unfold CLASS_MAPPING_items. simpl.
  intros H1 H2.
  repeat (destruct H1 as [H1 | H1]; [ | ]); try contradiction;
    repeat (destruct H2 as [H2 | H2]; [ | ]); try contradiction;
    congruence.
Qed.

Lemma CLASS_MAPPING_injective_witness :
  lookup 0x0028 = Some SMOKE /\ 0x0028 = 40.
Proof.
  split; [ reflexivity | ].
  apply (CLASS_MAPPING_injective 0x0028 40 SMOKE); reflexivity.
Defined.

(** X9: [device_class] depends on the world only for [IASZone], and
    there only through the [zone_type] entry of the sensor's channel;
    [zone_status] and every other attribute leave it alone. *)
Theorem device_class_one_entry (self : Sensor) (w1 w2 : World) :
  (class_of self = IASZone ->
   cluster w1 (_channel self) !! "zone_type"
   = cluster w2 (_channel self) !! "zone_type") ->
  device_class self w1 = device_class self w2.
Proof.
  intros Hsame. unfold device_class.
  destruct (class_of self); try reflexivity.
  unfold IASZone_device_class, cluster_get. simpl.
  rewrite (Hsame eq_refl). reflexivity.
Qed.

Lemma device_class_one_entry_witness :
  is_on ias_sensor alarmed_world <> is_on ias_sensor garbled_world
  /\ device_class ias_sensor alarmed_world = Some OPENING
  /\ device_class ias_sensor tampered_world = Some OPENING
  /\ device_class occupancy_sensor alarmed_world
     = device_class occupancy_sensor garbled_world.
Proof.
  split; [ vm_compute; discriminate | ].
  split; [ reflexivity | ].
  split.
  - rewrite <- (device_class_one_entry ias_sensor alarmed_world tampered_world);
      [ reflexivity | intros _; reflexivity ].
  - apply (device_class_one_entry occupancy_sensor alarmed_world garbled_world).
    intros H. discriminate H.
Defined.

(** ** The registered classes *)

Ltac each_registration H :=
  unfold registrations in H; simpl in H;
  repeat (destruct H as [<- | H]); try contradiction.

(** X10: every registered class names the attribute it reads:
    [SENSOR_ATTR] is a non-empty string, and the base class
    [BinarySensor], which has none, is never registered. *)
Theorem registered_class_has_SENSOR_ATTR (r : Registration) :
  In r registrations ->
  entity_class r <> BinarySensor
  /\ exists key : string,
       SENSOR_ATTR (entity_class r) = Some key /\ key <> "".
Proof.
  intros Hin. each_registration Hin; simpl;
    (split; [ discriminate | eexists; split; [ reflexivity | discriminate ] ]).
Qed.

Lemma registered_class_has_SENSOR_ATTR_witness :
  exists key : string, SENSOR_ATTR IASZone = Some key /\ key <> "".
Proof.
  apply (registered_class_has_SENSOR_ATTR
           {| strategy := MULTI_MATCH; rule := on CHANNEL_ZONE;
              entity_class := IASZone |}).
  simpl. tauto.
Defined.

(** X11: a class that declares an [id_suffix] uses the name of the
    attribute it reads as that suffix. *)
Theorem id_suffix_is_SENSOR_ATTR (c : EntityClass) (suffix : string) :
  id_suffix c = Some suffix -> SENSOR_ATTR c = Some suffix.
Proof. destruct c; simpl; intros H; first [ discriminate | exact H ]. Qed.

Lemma id_suffix_is_SENSOR_ATTR_witness :
  id_suffix AqaraThermostatExternalSensor = Some "sensor"
  /\ SENSOR_ATTR AqaraThermostatExternalSensor = Some "sensor".
Proof.
  split; [ reflexivity | ].
  apply (id_suffix_is_SENSOR_ATTR AqaraThermostatExternalSensor "sensor").
  reflexivity.
Defined.

(** X12: two different classes registered on the same channel name
    through [MULTI_MATCH] or [CONFIG_DIAGNOSTIC_MATCH] both declare an
    [id_suffix], and the two suffixes differ, so the entities they add
    to one cluster can be told apart. *)
Theorem shared_channel_id_suffix_distinct (r1 r2 : Registration) :
  In r1 registrations ->
  In r2 registrations ->
  strategy r1 <> STRICT_MATCH ->
  strategy r2 <> STRICT_MATCH ->
  channel_names (rule r1) = channel_names (rule r2) ->
  entity_class r1 <> entity_class r2 ->
  id_suffix (entity_class r1) <> None
  /\ id_suffix (entity_class r2) <> None
  /\ id_suffix (entity_class r1) <> id_suffix (entity_class r2).
Proof.
  intros H1 H2 Hs1 Hs2 Hch Hne.
  each_registration H1; simpl in Hs1; try congruence;
    each_registration H2; simpl in Hs2, Hch, Hne; try congruence;
    simpl; repeat split; discriminate.
Qed.

Lemma shared_channel_id_suffix_distinct_witness :
  id_suffix AqaraThermostatCalibrated <> id_suffix AqaraThermostatWindowOpen.
Proof.
  apply (shared_channel_id_suffix_distinct
           {| strategy := CONFIG_DIAGNOSTIC_MATCH;
              rule := {| channel_names := Literal "opple_cluster";
                         manufacturers := Unset;
                         models := OneOf ["lumi.airrtc.agl001"] |};
              entity_class := AqaraThermostatCalibrated |}
           {| strategy := MULTI_MATCH;
              rule := {| channel_names := Literal "opple_cluster";
                         manufacturers := Unset;
                         models := OneOf ["lumi.airrtc.agl001"] |};
              entity_class := AqaraThermostatWindowOpen |}).
  - simpl. tauto.
  - simpl. tauto.
  - discriminate.
  - discriminate.
  - reflexivity.
  - discriminate.
Defined.

(** X13: a registered class whose entity category is diagnostic is
    registered through [CONFIG_DIAGNOSTIC_MATCH] and through no other
    entry point. *)
Theorem diagnostic_class_uses_config_diagnostic_match (r : Registration) :
  In r registrations ->
  _attr_entity_category (entity_class r) = Some DIAGNOSTIC ->
  strategy r = CONFIG_DIAGNOSTIC_MATCH.
Proof.
  intros Hin Hcat. each_registration Hin; simpl in Hcat |- *;
    first [ discriminate | reflexivity ].
Qed.

Lemma diagnostic_class_uses_config_diagnostic_match_witness :
  strategy
    {| strategy := CONFIG_DIAGNOSTIC_MATCH;
       rule := {| channel_names := Literal "opple_cluster";
                  manufacturers := Unset;
                  models := OneOf ["lumi.airrtc.agl001"] |};
       entity_class := AqaraThermostatExternalSensor |}
  = CONFIG_DIAGNOSTIC_MATCH.
Proof.
  apply diagnostic_class_uses_config_diagnostic_match.
  - simpl. tauto.
  - reflexivity.
Defined.

(** ** Updates one after another *)

Lemma device_class_reads_cache (self : Sensor) (w1 w2 : World) :
  cluster w1 = cluster w2 -> device_class self w1 = device_class self w2.
Proof.
  intros H. unfold device_class, IASZone_device_class. rewrite H. reflexivity.
Qed.

(** X14: after any run of updates delivered to one sensor, the host has
    received one state write per update, each naming that sensor and
    all after the writes that were there before; no cluster cache has
    changed, so [is_on] and [device_class] of every sensor are what
    they were. *)
Theorem async_set_state_run (self : Sensor)
    (updates : list (PyVal * PyVal * PyVal)) (w : World) :
  let w' :=
    fold_left
      (fun acc '(attr_id, attr_name, value) =>
         async_set_state self attr_id attr_name value acc)
      updates w in
  state_writes w'
  = state_writes w ++ repeat (unique_id (base self)) (length updates)
  /\ cluster w' = cluster w
  /\ (forall other : Sensor,
        is_on other w' = is_on other w
        /\ device_class other w' = device_class other w).
Proof.
  cbv zeta.
  assert (Hrun :
    forall (us : list (PyVal * PyVal * PyVal)) (w0 : World),
      state_writes
        (fold_left
           (fun acc '(attr_id, attr_name, value) =>
              async_set_state self attr_id attr_name value acc) us w0)
      = state_writes w0 ++ repeat (unique_id (base self)) (length us)
      /\ cluster
           (fold_left
              (fun acc '(attr_id, attr_name, value) =>
                 async_set_state self attr_id attr_name value acc) us w0)
         = cluster w0).
  { induction us as [ | [[attr_id attr_name] value] us IH ]; intros w0; simpl.
    - rewrite app_nil_r. split; reflexivity.
    - destruct (IH (async_set_state self attr_id attr_name value w0))
        as [Hwrites Hcache].
      rewrite Hwrites, Hcache, async_set_state_unfold. simpl.
      rewrite <- app_assoc. split; reflexivity. }
  destruct (Hrun updates w) as [Hwrites Hcache].
  split; [ exact Hwrites | ]. split; [ exact Hcache | ].
  intros other. split.
  - apply is_on_reads_cache, Hcache.
  - apply device_class_reads_cache, Hcache.
Qed.

(** ** Construction, failures and first use *)

(** X15: the constructor fails in two ways only: the base constructor
    raised, and then that exception comes out whatever [channels] is;
    or the base constructor returned and [channels] is empty, and then
    it is an [IndexError]. *)
Theorem BinarySensor_init_failures
    (ZhaEntity_init :
       string -> DeviceRef -> list ChannelRef -> list (string * PyVal) -> res ZhaEntity)
    (c : EntityClass) (unique_id : string) (zha_device : DeviceRef)
    (channels : list ChannelRef) (kwargs : list (string * PyVal)) (e : PyExc) :
  BinarySensor_init ZhaEntity_init c unique_id zha_device channels kwargs
  = Raise e
  <->
  ZhaEntity_init unique_id zha_device channels kwargs = Raise e
  \/ (exists entity : ZhaEntity,
        ZhaEntity_init unique_id zha_device channels kwargs = Ok entity
        /\ channels = [] /\ e = IndexError).
Proof.
  unfold BinarySensor_init.
  destruct (ZhaEntity_init unique_id zha_device channels kwargs)
    as [ entity | e' ]; simpl.
  - destruct channels as [ | first others ]; simpl.
    + split.
      * intros H. injection H as <-. right. exists entity. tauto.
      * intros [H | (entity' & _ & _ & ->)]; [ discriminate | reflexivity ].
    + split; [ discriminate | ].
      intros [H | (entity' & _ & H & _)]; discriminate.
  - split.
    + intros H. left. congruence.
    + intros [H | (entity' & H & _)]; [ congruence | discriminate ].
Qed.

Lemma BinarySensor_init_failures_witness :
  BinarySensor_init ZhaEntity_init_refuse Occupancy "uid" 7%nat [] []
  = Raise TypeError
  /\ BinarySensor_init ZhaEntity_init_keep Occupancy "uid" 7%nat [] []
     = Raise IndexError.
Proof.
  split.
  - apply (proj2 (BinarySensor_init_failures ZhaEntity_init_refuse Occupancy
                    "uid" 7%nat [] [] TypeError)).
    left. reflexivity.
  - apply (proj2 (BinarySensor_init_failures ZhaEntity_init_keep Occupancy
                    "uid" 7%nat [] [] IndexError)).
    right. eexists. split; [ reflexivity | split; reflexivity ].
Defined.



(** ** The IKEA model predicate *)

(** X17: the [models=] predicate of the IKEA rule returns [True]
    exactly for a string in which [motion] occurs, in that spelling, at
    any position; every other model value, [None] included, gives
    [False]. *)
Theorem ikea_motion_models_true_iff (model : PyVal) :
  (ikea_motion_models model = Ok (PyBool true) <->
   exists pre post : string,
     model = PyStr (String.append pre (String.append "motion" post)))
  /\ (ikea_motion_models model <> Ok (PyBool true) ->
      ikea_motion_models model = Ok (PyBool false)).
Proof.
  split.
  - destruct model as [ | b | z | s ].
    + split; [ discriminate | intros (pre & post & H); discriminate ].
    + split; [ discriminate | intros (pre & post & H); discriminate ].
    + split; [ discriminate | intros (pre & post & H); discriminate ].
    + rewrite ikea_motion_models_substring. split.
      * intros (pre & post & ->). eauto.
      * intros (pre & post & H). injection H as ->. eauto.
  - destruct model as [ | b | z | s ]; try reflexivity.
    rewrite ikea_motion_models_str.
    destruct (negb _); [ congruence | reflexivity ].
Qed.

Lemma ikea_motion_models_true_iff_witness :
  ikea_motion_models (PyStr "TRADFRI motion sensor") = Ok (PyBool true)
  /\ ikea_motion_models (PyStr "TRADFRI Motion sensor") = Ok (PyBool false).
Proof.
  split.
  - apply (proj1 (ikea_motion_models_true_iff (PyStr "TRADFRI motion sensor"))).
    exists "TRADFRI ", " sensor". reflexivity.
  - apply (proj2 (ikea_motion_models_true_iff (PyStr "TRADFRI Motion sensor"))).
    vm_compute. discriminate.
Defined.
